(** * An 8-bit ALU simulator: the engine of [alu_simulator.py]

    The engine is the Python class [ALU]: an object with two attributes,
    [result] (an int) and [flags] (a reference to a dict with the keys
    'Z', 'N', 'C' and 'V'), and one public method, [execute].  Python ints
    are unbounded, so they are [Z] here, with the source's masks written
    out ([& 0xFF] is [Z.land _ 255]).  Dicts are heap objects: the engine
    allocates a new one at every call, writes the flags into it in place
    and hands a copy back, so the heap of dicts is part of the state.  *)

From Stdlib Require Import Ascii.
From stdpp Require Import base numbers strings pretty gmap fin_maps.

Local Open Scope Z_scope.

(** ** Python objects *)

Module Py.

(** A dict with string keys and int values, and the heap of such dicts. *)
Abbreviation dict := (gmap string Z).
Abbreviation loc := positive.
Abbreviation heap := (gmap loc dict).

(** The only exception the engine raises; the message of the source
    interpolates the offending opcode, which is what is kept here. *)
Inductive exn : Type :=
| ValueError (opcode : Z).

Inductive outcome (A : Type) : Type :=
| Return (x : A)
| Raise (e : exn).
Global Arguments Return {A} x.
Global Arguments Raise {A} e.

(** Truth value of an int in a condition. *)
Definition truthy (v : Z) : bool := negb (v =? 0).

(** [{...}] and [d.copy()]: a new object at an unused address. *)
Definition alloc (d : dict) (h : heap) : loc * heap :=
  let l := fresh (dom h) in (l, <[l := d]> h).

(** [d[k] = v] on the object at [l].  A Python reference always points to
    a live object, so the lookup below cannot miss on a reachable state. *)
Definition setitem (l : loc) (k : string) (v : Z) (h : heap) : heap :=
  alter (insert k v) l h.

(** The contents of the object at [l]. *)
Definition deref (h : heap) (l : loc) : dict := default ∅ (h !! l).

End Py.
Export Py.

(** ** The engine object and its methods *)

(** The attributes of [self]. *)
Record ALU : Type := mkALU { result : Z; flags : loc }.

(** What a method runs in: the heap of dicts and the object [self]. *)
Definition state : Type := heap * ALU.

(** Methods thread the state and may raise. *)
Definition M (A : Type) : Type := state -> outcome A * state.

Definition ret {A} (x : A) : M A := fun s => (Return x, s).

Definition bind {A B} (m : M A) (k : A -> M B) : M B :=
  fun s =>
    match m s with
    | (Return x, s') => k x s'
    | (Raise e, s') => (Raise e, s')
    end.

Definition raise {A} (e : exn) : M A := fun s => (Raise e, s).

#[global] Instance M_ret : MRet M := @ret.
#[global] Instance M_bind : MBind M := fun A B k m => bind m k.

(** [if c: body], with no else branch. *)
Definition when (c : bool) (body : M unit) : M unit :=
  if c then body else ret tt.

(** Reading and writing the attributes of [self]. *)
Definition get_result : M Z := fun s => (Return (result (snd s)), s).

Definition set_result (r : Z) : M unit :=
  fun s => (Return tt, (fst s, mkALU r (flags (snd s)))).

(** [self.flags = {...}]: a new dict, and [self.flags] now refers to it. *)
Definition set_flags_new (d : dict) : M unit :=
  fun s =>
    let (l, h) := alloc d (fst s) in
    (Return tt, (h, mkALU (result (snd s)) l)).

(** [self.flags[k] = v]: the dict [self.flags] refers to is changed in place. *)
Definition flags_setitem (k : string) (v : Z) : M unit :=
  fun s => (Return tt, (setitem (flags (snd s)) k v (fst s), snd s)).

(** [self.flags.copy()]: a new dict with the same items. *)
Definition flags_copy : M loc :=
  fun s =>
    let (l, h) := alloc (deref (fst s) (flags (snd s))) (fst s) in
    (Return l, (h, snd s)).

(** The opcodes, class constants of [ALU]. *)
Definition OP_ADD : Z := 0.
Definition OP_SUB : Z := 1.
Definition OP_AND : Z := 2.
Definition OP_OR : Z := 3.
Definition OP_XOR : Z := 4.
Definition OP_NOT : Z := 5.

(** [{'Z': 0, 'N': 0, 'C': 0, 'V': 0}] *)
Definition cleared_flags : dict :=
  <["Z" := 0]> (<["N" := 0]> (<["C" := 0]> (<["V" := 0]> ∅))).

(** [ALU.__init__], run on the heap of the caller. *)
Definition init (h : heap) : state :=
  let (l, h') := alloc cleared_flags h in (h', mkALU 0 l).

(** [ALU._add] *)
Definition _add (a b : Z) : M Z :=
  let result := a + b in
  when (255 <? result) (flags_setitem "C" 1);;
  ret (Z.land result 255).

(** [ALU._sub] *)
Definition _sub (a b : Z) : M Z :=
  let result := a - b in
  when (result <? 0) (flags_setitem "C" 1);;
  ret (Z.land result 255).

(** [ALU._and], [ALU._or], [ALU._xor], [ALU._not] *)
Definition _and (a b : Z) : M Z := ret (Z.land (Z.land a b) 255).
Definition _or (a b : Z) : M Z := ret (Z.land (Z.lor a b) 255).
Definition _xor (a b : Z) : M Z := ret (Z.land (Z.lxor a b) 255).
Definition _not (a : Z) : M Z := ret (Z.land (Z.lnot a) 255).

(** [(x & 0x80) >> 7], the sign extraction of both overflow routines. *)
Definition sign_bit (x : Z) : Z := Z.shiftr (Z.land x 128) 7.

(** [ALU._calculate_overflow_add] *)
Definition _calculate_overflow_add (a b : Z) : M unit :=
  let sign_a := sign_bit a in
  let sign_b := sign_bit b in
  r ← get_result;
  let sign_result := sign_bit r in
  when ((sign_a =? sign_b) && negb (sign_a =? sign_result))
       (flags_setitem "V" 1).

(** [ALU._calculate_overflow_sub] *)
Definition _calculate_overflow_sub (a b : Z) : M unit :=
  let sign_a := sign_bit a in
  let sign_b := sign_bit b in
  r ← get_result;
  let sign_result := sign_bit r in
  when (negb (sign_a =? sign_b) && negb (sign_a =? sign_result))
       (flags_setitem "V" 1).

(** [ALU._calculate_flags] *)
Definition _calculate_flags (a b opcode : Z) : M unit :=
  r ← get_result;
  when (r =? 0) (flags_setitem "Z" 1);;
  r ← get_result;
  when (truthy (Z.land r 128)) (flags_setitem "N" 1);;
  if opcode =? OP_ADD then _calculate_overflow_add a b
  else if opcode =? OP_SUB then _calculate_overflow_sub a b
  else ret tt.

(** [ALU.execute]: the returned pair holds [self.result] and the address of
    the copy of the flags. *)
Definition execute (a b opcode : Z) : M (Z * loc) :=
  let a := Z.land a 255 in
  let b := Z.land b 255 in
  set_flags_new cleared_flags;;
  (if opcode =? OP_ADD then r ← _add a b; set_result r
   else if opcode =? OP_SUB then r ← _sub a b; set_result r
   else if opcode =? OP_AND then r ← _and a b; set_result r
   else if opcode =? OP_OR then r ← _or a b; set_result r
   else if opcode =? OP_XOR then r ← _xor a b; set_result r
   else if opcode =? OP_NOT then r ← _not a; set_result r
   else raise (ValueError opcode));;
  _calculate_flags a b opcode;;
  r ← get_result;
  l ← flags_copy;
  ret (r, l).

(** ** What a caller sees *)

(** The caller of [execute] gets an int and a dict; it reads the dict through
    the heap the call leaves behind. *)
Definition observe (o : outcome (Z * loc) * state) : outcome (Z * dict) :=
  match o with
  | (Return (r, l), s) => Return (r, deref (fst s) l)
  | (Raise e, _) => Raise e
  end.

Definition call (a b opcode : Z) (s : state) : outcome (Z * dict) :=
  observe (execute a b opcode s).

(** The engine left behind by a call, whether it returned or raised. *)
Definition after (a b opcode : Z) (s : state) : state :=
  snd (execute a b opcode s).

Definition stored_flags (s : state) : dict := deref (fst s) (flags (snd s)).

Definition valid_opcode (opcode : Z) : Prop := 0 <= opcode <= 5.

(** The flag [k] of [d] is 1 when [P] holds and 0 when it does not. *)
Definition flag_is (d : dict) (k : string) (P : Prop) : Prop :=
  (d !! k = Some 1 /\ P) \/ (d !! k = Some 0 /\ ~ P).

(** ** A pure view of a valid call *)

Definition set_if (c : bool) (k : string) (d : dict) : dict :=
  if c then <[k := 1]> d else d.

Definition value_of (a b opcode : Z) : Z :=
  if opcode =? OP_ADD then Z.land (a + b) 255
  else if opcode =? OP_SUB then Z.land (a - b) 255
  else if opcode =? OP_AND then Z.land (Z.land a b) 255
  else if opcode =? OP_OR then Z.land (Z.lor a b) 255
  else if opcode =? OP_XOR then Z.land (Z.lxor a b) 255
  else Z.land (Z.lnot a) 255.

Definition carry_of (a b opcode : Z) : bool :=
  if opcode =? OP_ADD then 255 <? a + b
  else if opcode =? OP_SUB then a - b <? 0
  else false.

Definition overflow_of (a b opcode r : Z) : bool :=
  if opcode =? OP_ADD then
    (sign_bit a =? sign_bit b) && negb (sign_bit a =? sign_bit r)
  else if opcode =? OP_SUB then
    negb (sign_bit a =? sign_bit b) && negb (sign_bit a =? sign_bit r)
  else false.

Definition flags_of (a b opcode : Z) : dict :=
  let r := value_of a b opcode in
  set_if (overflow_of a b opcode r) "V"
    (set_if (truthy (Z.land r 128)) "N"
       (set_if (r =? 0) "Z"
          (set_if (carry_of a b opcode) "C" cleared_flags))).

(** ** Engine states used in the examples *)

(** A new engine on an empty heap. *)
Definition power_on : state := init ∅.

(** The engine after [execute(200, 100, ADD)]: result 44 and the flag C at 1. *)
Definition after_add_carry : state := after 200 100 OP_ADD power_on.

(** ** The operation names *)

(** [ALU.get_operation_name]: the dict of labels and [operations.get]. *)
Definition operations : gmap Z string :=
  list_to_map
    [(0, "ADD (Suma)"); (1, "SUB (Resta)"); (2, "AND"); (3, "OR");
     (4, "XOR"); (5, "NOT")].

Definition get_operation_name (opcode : Z) : string :=
  default "Desconocida" (operations !! opcode).

(** ** The display helpers of [ALUSimulatorGUI] *)

(** A Python str is the string of its characters, non-ASCII ones as their
    UTF-8 bytes; concatenation and the substring test [x in s] read the same
    on both.  [len] and slices are only applied to ASCII strings. *)

(** [needle in s] *)
Definition str_in (needle s : string) : bool :=
  match String.index 0 needle s with
  | Some _ => true
  | None => false
  end.

(** [s[:n]] and [s[n:]], for [n >= 0]. *)
Definition str_to (n : nat) (s : string) : string := String.substring 0 n s.


(** [sep.join(l)] *)
Fixpoint str_join (sep : string) (l : list string) : string :=
  match l with
  | [] => ""
  | [x] => x
  | x :: l' => x +:+ sep +:+ str_join sep l'
  end.

(** [ALUSimulatorGUI.to_signed_8bit] *)
Definition to_signed_8bit (unsigned_value : Z) : Z :=
  if 127 <? unsigned_value then unsigned_value - 256 else unsigned_value.


(** The binary digits of a positive number, most significant first. *)
Fixpoint bin_digits (p : positive) : string :=
  match p with
  | xH => "1"
  | xO p' => bin_digits p' +:+ "0"
  | xI p' => bin_digits p' +:+ "1"
  end.

Fixpoint zeros (n : nat) : string :=
  match n with
  | O => ""
  | S n' => "0" +:+ zeros n'
  end.

(** The built-in [format(value, '08b')]: the binary digits of the absolute
    value after the sign, filled with zeros between the two up to 8
    characters. *)
Definition format_08b (value : Z) : string :=
  let digits :=
    match value with
    | Z0 => "0"
    | Zpos p => bin_digits p
    | Zneg p => bin_digits p
    end in
  let sign := if value <? 0 then "-" else "" in
  sign +:+ zeros (8 - String.length sign - String.length digits) +:+ digits.

(** The loop of [update_binary_a] and [update_binary_b] that writes the bits
    of [value] into the eight checkbox variables, index 0 for bit 7.  [None]
    is the IndexError of a list with fewer variables. *)
Definition update_binary_bits (value : Z) (bit_vars : list Z) : option (list Z) :=
  foldl
    (fun acc i =>
       vars ← acc;
       let bit_position := 7 - Z.of_nat i in
       let bit_value := Z.land (Z.shiftr value bit_position) 1 in
       if decide (i < length vars)%nat
       then Some (<[i := bit_value]> vars)
       else None)
    (Some bit_vars) (seq 0 8).

(** The loop of [sync_bits_to_text_a] and [sync_bits_to_text_b] that adds up
    the checkbox variables equal to 1. *)
Definition sync_bits_value (bit_vars : list Z) : option Z :=
  foldl
    (fun acc i =>
       value ← acc;
       bit ← bit_vars !! i;
       let bit_position := 7 - Z.of_nat i in
       Some (if bit =? 1 then value + Z.shiftl 1 bit_position else value))
    (Some 0) (seq 0 8).

(** The colours of [setup_styles] that the status bar uses. *)
Definition accent_color : string := "#0f4c75".
Definition led_on_green : string := "#00ff00".
Definition led_on_red : string := "#ff3333".
Definition warning_color : string := "#ffaa00".

(** The messages of [update_status_bar]. *)
Definition msg_overflow : string :=
  "⚠️ ¡OVERFLOW! Desbordamiento de signo detectado (error en aritmética con signo)".

Definition msg_carry (a b : Z) : string :=
  "🔴 CARRY: El resultado (" +:+ pretty a +:+ "+" +:+ pretty b +:+ "="
    +:+ pretty (a + b) +:+ ") excedió 8 bits (>255)".

Definition msg_borrow (a b : Z) : string :=
  "🔴 BORROW: Se necesitó préstamo (" +:+ pretty a +:+ "-" +:+ pretty b
    +:+ " fue negativo)".

Definition msg_negative (result : Z) : string :=
  "➖ NEGATIVO: El bit 7 está activo (valor " +:+ pretty result
    +:+ " es negativo en complemento a 2)".

Definition msg_zero : string := "✅ ZERO: El resultado es exactamente cero".

Definition msg_success (op_name : string) (result : Z) : string :=
  "✅ Operación exitosa: " +:+ op_name +:+ " = " +:+ pretty result
    +:+ ". Todas las banderas en estado normal".

(** The list [messages] of [update_status_bar] before it is cut to two
    entries.  [None] is the KeyError of a flag missing from [flags]. *)
Definition status_messages
    (flags : dict) (op_name : string) (a b result : Z) : option (list string) :=
  v ← flags !! "V";
  let messages := if v =? 1 then [msg_overflow] else [] in
  c ← flags !! "C";
  let messages :=
    if c =? 1 then
      if str_in "ADD" op_name then messages ++ [msg_carry a b]
      else if str_in "SUB" op_name then messages ++ [msg_borrow a b]
      else messages
    else messages in
  n ← flags !! "N";
  let messages := if n =? 1 then messages ++ [msg_negative result] else messages in
  z ← flags !! "Z";
  let messages := if z =? 1 then messages ++ [msg_zero] else messages in
  let messages :=
    match messages with
    | [] => messages ++ [msg_success op_name result]
    | _ => messages
    end in
  Some messages.

(** What [update_status_bar] hands to [status_label.config]. *)
Record status : Type := mkStatus { text : string; bg : string; fg : string }.

(** [ALUSimulatorGUI.update_status_bar] *)
Definition update_status_bar
    (flags : dict) (op_name : string) (a b result : Z) : option status :=
  messages ← status_messages flags op_name a b result;
  let status_text := str_join " | " (take 2 messages) in
  v ← flags !! "V";
  if v =? 1 then Some (mkStatus status_text led_on_red "white")
  else
    c ← flags !! "C";
    if c =? 1 then Some (mkStatus status_text led_on_red "white")
    else
      n ← flags !! "N";
      if n =? 1 then Some (mkStatus status_text warning_color "#000000")
      else
        z ← flags !! "Z";
        if z =? 1 then Some (mkStatus status_text led_on_green "#000000")
        else Some (mkStatus status_text accent_color "white").

(** ** Calls in a row *)

(** A run of [execute] calls on one engine, each given as (a, b, opcode);
    the engine outlives a call that raises. *)
Definition calls (l : list (Z * Z * Z)) (s : state) : state :=
  foldl (fun s c => after (fst (fst c)) (snd (fst c)) (snd c) s) s l.

(** A live engine: [self.result] is a byte and [self.flags] is a dict with
    the keys 'Z', 'N', 'C' and 'V' and values 0 or 1. *)
Definition engine_ok (s : state) : Prop :=
  0 <= result (snd s) <= 255 /\
  exists d : dict,
    fst s !! flags (snd s) = Some d /\
    dom d = ({["Z"; "N"; "C"; "V"]} : gset string) /\
    forall k v, d !! k = Some v -> v = 0 \/ v = 1.

(** ** Running the methods *)

Lemma bind_return {A B} (m : M A) (k : A -> M B) (s s' : state) (x : A) :
  m s = (Return x, s') -> (m ≫= k) s = k x s'.
Proof. intros E. unfold mbind, M_bind, bind. by rewrite E. Qed.

Lemma bind_raise {A B} (m : M A) (k : A -> M B) (s s' : state) (e : exn) :
  m s = (Raise e, s') -> (m ≫= k) s = (Raise e, s').
Proof. intros E. unfold mbind, M_bind, bind. by rewrite E. Qed.

(** Decides the opcode tests of a dispatch once the opcode is known. *)
Ltac decide_opcode :=
  repeat match goal with
    | |- context [Z.eqb ?x ?y] =>
        let v := eval vm_compute in (Z.eqb x y) in
        first [constr_eq v true | constr_eq v false];
        change (Z.eqb x y) with v
    end;
  cbv iota.

Lemma valid_opcode_cases (opcode : Z) :
  valid_opcode opcode ->
  opcode = OP_ADD \/ opcode = OP_SUB \/ opcode = OP_AND \/
  opcode = OP_OR \/ opcode = OP_XOR \/ opcode = OP_NOT.
Proof. unfold valid_opcode, OP_ADD, OP_SUB, OP_AND, OP_OR, OP_XOR, OP_NOT. lia. Qed.

Section Run.

Variables (h : heap) (l : loc) (d : dict) (r : Z).

Lemma setitem_insert k v : setitem l k v (<[l := d]> h) = <[l := <[k := v]> d]> h.
Proof. unfold setitem. apply alter_insert_eq. Qed.

Lemma run_when_setitem c k :
  when c (flags_setitem k 1) (<[l := d]> h, mkALU r l) = (Return tt, (<[l := set_if c k d]> h, mkALU r l)).
Proof.
  destruct c; [|done].
  unfold when, flags_setitem; cbn [fst snd flags set_if].
  by rewrite setitem_insert.
Qed.

Lemma run_get_result :
  get_result (<[l := d]> h, mkALU r l) = (Return r, (<[l := d]> h, mkALU r l)).
Proof. done. Qed.

Lemma run_set_result r' :
  set_result r' (<[l := d]> h, mkALU r l) =
  (Return tt, (<[l := d]> h, mkALU r' l)).
Proof. done. Qed.

Lemma run_add a b :
  _add a b (<[l := d]> h, mkALU r l) =
  (Return (Z.land (a + b) 255), (<[l := set_if (255 <? a + b) "C" d]> h, mkALU r l)).
Proof. unfold _add. by erewrite bind_return by apply run_when_setitem. Qed.

Lemma run_sub a b :
  _sub a b (<[l := d]> h, mkALU r l) =
  (Return (Z.land (a - b) 255), (<[l := set_if (a - b <? 0) "C" d]> h, mkALU r l)).
Proof. unfold _sub. by erewrite bind_return by apply run_when_setitem. Qed.

Lemma run_calculate_overflow_add a b :
  _calculate_overflow_add a b (<[l := d]> h, mkALU r l) =
  (Return tt, (<[l := set_if (overflow_of a b OP_ADD r) "V" d]> h, mkALU r l)).
Proof.
  unfold _calculate_overflow_add.
  erewrite bind_return by apply run_get_result.
  apply run_when_setitem.
Qed.

Lemma run_calculate_overflow_sub a b :
  _calculate_overflow_sub a b (<[l := d]> h, mkALU r l) =
  (Return tt, (<[l := set_if (overflow_of a b OP_SUB r) "V" d]> h, mkALU r l)).
Proof.
  unfold _calculate_overflow_sub.
  erewrite bind_return by apply run_get_result.
  apply run_when_setitem.
Qed.

End Run.

Lemma run_calculate_flags (h : heap) (l : loc) (d : dict) (r a b opcode : Z) :
  _calculate_flags a b opcode (<[l := d]> h, mkALU r l) =
  (Return tt,
   (<[l := set_if (overflow_of a b opcode r) "V"
             (set_if (truthy (Z.land r 128)) "N" (set_if (r =? 0) "Z" d))]> h,
    mkALU r l)).
Proof.
  unfold _calculate_flags.
  erewrite bind_return by apply run_get_result.
  erewrite bind_return by apply run_when_setitem.
  erewrite bind_return by apply run_get_result.
  erewrite bind_return by apply run_when_setitem.
  unfold overflow_of.
  destruct (opcode =? OP_ADD); [apply run_calculate_overflow_add|].
  destruct (opcode =? OP_SUB); [apply run_calculate_overflow_sub|].
  done.
Qed.

Lemma run_flags_copy (h : heap) (l : loc) (d : dict) (r : Z) :
  flags_copy (<[l := d]> h, mkALU r l) =
  (Return (fresh (dom (<[l := d]> h))),
   (<[fresh (dom (<[l := d]> h)) := d]> (<[l := d]> h), mkALU r l)).
Proof.
  unfold flags_copy, alloc, deref; cbn [fst snd flags].
  by rewrite lookup_insert_eq.
Qed.

(** A call with a valid opcode returns; [self.flags] is a dict allocated by
    the call, and the flags handed back are a second one with equal items. *)
Lemma execute_valid (a b opcode : Z) (h : heap) (alu : ALU) :
  valid_opcode opcode ->
  let a' := Z.land a 255 in
  let b' := Z.land b 255 in
  let r := value_of a' b' opcode in
  let d := flags_of a' b' opcode in
  let l1 := fresh (dom h) in
  let h1 := <[l1 := d]> h in
  let l2 := fresh (dom h1) in
  execute a b opcode (h, alu) = (Return (r, l2), (<[l2 := d]> h1, mkALU r l1)).
Proof.
  intros Hop a' b' r d l1 h1 l2.
  unfold execute. fold a' b'.
  erewrite bind_return by reflexivity.
  cbn [fst snd result alloc].
  subst r d. unfold flags_of.
  destruct (valid_opcode_cases _ Hop) as [->|[->|[->|[->|[->| ->]]]]];
    decide_opcode.
  all: erewrite bind_return;
    [| first [ erewrite bind_return by apply run_add
             | erewrite bind_return by apply run_sub
             | erewrite bind_return by reflexivity ];
       apply run_set_result ].
  all: erewrite bind_return by apply run_calculate_flags.
  all: erewrite bind_return by apply run_get_result.
  all: erewrite bind_return by apply run_flags_copy.
  all: unfold value_of, carry_of; decide_opcode; reflexivity.
Qed.

(** A call with any other opcode raises after the flags were replaced and
    before [self.result] is assigned. *)
Lemma execute_invalid (a b opcode : Z) (h : heap) (alu : ALU) :
  ~ valid_opcode opcode ->
  let l1 := fresh (dom h) in
  execute a b opcode (h, alu) =
  (Raise (ValueError opcode), (<[l1 := cleared_flags]> h, mkALU (result alu) l1)).
Proof.
  intros Hop l1. unfold execute.
  erewrite bind_return by reflexivity.
  cbn [fst snd result alloc].
  erewrite bind_raise; [reflexivity|].
  unfold valid_opcode in Hop.
  unfold OP_ADD, OP_SUB, OP_AND, OP_OR, OP_XOR, OP_NOT.
  repeat (rewrite (proj2 (Z.eqb_neq opcode _)) by lia).
  reflexivity.
Qed.

Lemma call_valid (a b opcode : Z) (s : state) :
  valid_opcode opcode ->
  call a b opcode s =
  Return (value_of (Z.land a 255) (Z.land b 255) opcode,
          flags_of (Z.land a 255) (Z.land b 255) opcode).
Proof.
  intros Hop. destruct s as [h alu]. unfold call.
  rewrite (execute_valid a b opcode h alu Hop).
  unfold observe, deref; cbn [fst snd]. by rewrite lookup_insert_eq.
Qed.

Lemma call_invalid (a b opcode : Z) (s : state) :
  ~ valid_opcode opcode -> call a b opcode s = Raise (ValueError opcode).
Proof.
  intros Hop. destruct s as [h alu]. unfold call.
  by rewrite (execute_invalid a b opcode h alu Hop).
Qed.

(** ** Bytes and their sign bit *)

Lemma byte_mask (x : Z) : 0 <= x <= 255 -> Z.land x 255 = x.
Proof.
  intros Hx. change 255 with (Z.ones 8).
  rewrite Z.land_ones by lia. apply Z.mod_small. lia.
Qed.

Lemma mask_range (x : Z) : 0 <= Z.land x 255 <= 255.
Proof.
  change 255 with (Z.ones 8) at 1 2.
  rewrite Z.land_ones by lia.
  pose proof (Z.mod_pos_bound x (2 ^ 8)). lia.
Qed.

Lemma mask_mask (x : Z) : Z.land (Z.land x 255) 255 = Z.land x 255.
Proof. apply byte_mask, mask_range. Qed.

(** [(x & 0x80) >> 7] is bit 7 of [x], as 0 or 1. *)
Lemma sign_bit_testbit (x : Z) : sign_bit x = Z.b2z (Z.testbit x 7).
Proof.
  unfold sign_bit. apply Z.bits_inj'. intros n Hn.
  rewrite Z.shiftr_spec, Z.land_spec by lia.
  change 128 with (2 ^ 7).
  rewrite Z.pow2_bits_eqb by lia.
  destruct (Z.eq_dec n 0) as [->|Hne].
  - cbn [Z.add]. rewrite Z.eqb_refl, andb_true_r. by rewrite Z.b2z_bit0.
  - rewrite (proj2 (Z.eqb_neq 7 (n + 7))) by lia. rewrite andb_false_r.
    destruct (Z.testbit x 7); cbn [Z.b2z].
    + symmetry. change 1 with (2 ^ 0). rewrite Z.pow2_bits_eqb by lia.
      apply Z.eqb_neq. lia.
    + by rewrite Z.bits_0.
Qed.

Lemma sign_bit_eqb (x y : Z) :
  (sign_bit x =? sign_bit y) = eqb (Z.testbit x 7) (Z.testbit y 7).
Proof.
  rewrite !sign_bit_testbit.
  by destruct (Z.testbit x 7), (Z.testbit y 7).
Qed.

(** Bit 7 of a byte is set exactly when the byte meets the mask [0x80]. *)
Lemma land_128_testbit (x : Z) : truthy (Z.land x 128) = Z.testbit x 7.
Proof.
  unfold truthy.
  pose proof (sign_bit_testbit x) as E. unfold sign_bit in E.
  destruct (Z.eqb_spec (Z.land x 128) 0) as [E0|E0]; cbn [negb].
  - rewrite E0 in E. revert E. by destruct (Z.testbit x 7).
  - revert E. destruct (Z.testbit x 7); [done|]. cbn [Z.b2z]. intros E.
    exfalso. apply E0. apply Z.bits_inj'. intros n Hn.
    rewrite Z.bits_0.
    destruct (Z_lt_dec n 7).
    + rewrite Z.land_spec. change 128 with (2 ^ 7).
      rewrite Z.pow2_bits_eqb by lia.
      rewrite (proj2 (Z.eqb_neq 7 n)) by lia. apply andb_false_r.
    + replace n with (n - 7 + 7) by lia.
      rewrite <- Z.shiftr_spec by lia. rewrite E. apply Z.bits_0.
Qed.

(** Reads a flag off a dict built by the engine. *)
Ltac read_flags :=
  unfold flags_of;
  repeat match goal with
    | |- context [set_if ?c _ _] =>
        let E := fresh "E" in destruct c eqn:E; cbn [set_if]
    end.

Lemma flags_of_C (a b opcode : Z) :
  flags_of a b opcode !! "C" = Some (Z.b2z (carry_of a b opcode)).
Proof. read_flags; reflexivity. Qed.

Lemma flags_of_Z (a b opcode : Z) :
  flags_of a b opcode !! "Z" = Some (Z.b2z (value_of a b opcode =? 0)).
Proof. read_flags; reflexivity. Qed.

Lemma flags_of_N (a b opcode : Z) :
  flags_of a b opcode !! "N" =
  Some (Z.b2z (truthy (Z.land (value_of a b opcode) 128))).
Proof. read_flags; reflexivity. Qed.

Lemma flags_of_V (a b opcode : Z) :
  flags_of a b opcode !! "V" =
  Some (Z.b2z (overflow_of a b opcode (value_of a b opcode))).
Proof. read_flags; reflexivity. Qed.

Lemma flag_is_b2z (d : dict) (k : string) (c : bool) (P : Prop) :
  d !! k = Some (Z.b2z c) -> (c = true <-> P) -> flag_is d k P.
Proof.
  intros Hd HP. unfold flag_is. destruct c; cbn [Z.b2z] in Hd.
  - left. split; [done|]. by apply HP.
  - right. split; [done|]. intros HP'. apply HP in HP'. discriminate.
Qed.

(** ** The frame of a call: dicts that exist before it are not touched *)

Lemma fresh_dom_ne (h : heap) (l : loc) (d : dict) :
  h !! l = Some d -> fresh (dom h) <> l.
Proof.
  intros Hl E. apply (is_fresh (dom h)). rewrite E.
  apply elem_of_dom. by exists d.
Qed.

Lemma alloc_frame (h : heap) (l : loc) (d d' : dict) :
  h !! l = Some d -> <[fresh (dom h) := d']> h !! l = Some d.
Proof.
  intros Hl. rewrite lookup_insert_ne; [done|]. by eapply fresh_dom_ne.
Qed.

Lemma execute_frame (a b opcode : Z) (s : state) (l : loc) (d : dict) :
  fst s !! l = Some d -> fst (snd (execute a b opcode s)) !! l = Some d.
Proof.
  destruct s as [h alu]. cbn [fst]. intros Hl.
  destruct (decide (valid_opcode opcode)) as [Hop|Hop].
  - rewrite (execute_valid a b opcode h alu Hop). cbn [fst snd].
    by apply alloc_frame, alloc_frame.
  - rewrite (execute_invalid a b opcode h alu Hop). cbn [fst snd].
    by apply alloc_frame.
Qed.

(** ** The scenarios of the specification *)

Example scenario_add_carry :
  call 200 100 OP_ADD power_on = Return (44, <["C" := 1]> cleared_flags).
Proof. vm_compute. reflexivity. Qed.

Example scenario_add_overflow :
  call 100 50 OP_ADD power_on =
  Return (150, <["N" := 1]> (<["V" := 1]> cleared_flags)).
Proof. vm_compute. reflexivity. Qed.

Example scenario_sub_borrow :
  call 5 10 OP_SUB power_on =
  Return (251, <["N" := 1]> (<["C" := 1]> cleared_flags)).
Proof. vm_compute. reflexivity. Qed.

Example scenario_sub_zero :
  call 10 10 OP_SUB power_on = Return (0, <["Z" := 1]> cleared_flags).
Proof. vm_compute. reflexivity. Qed.

Example scenario_xor :
  call 172 240 OP_XOR power_on = Return (92, cleared_flags).
Proof. vm_compute. reflexivity. Qed.

Example scenario_not :
  call 255 0 OP_NOT power_on = Return (0, <["Z" := 1]> cleared_flags).
Proof. vm_compute. reflexivity. Qed.

Example scenario_invalid :
  call 1 2 6 power_on = Raise (ValueError 6).
Proof. vm_compute. reflexivity. Qed.

(** ** Bitwise operations on bytes stay bytes *)

Lemma land_byte (a b : Z) : 0 <= b <= 255 -> Z.land (Z.land a b) 255 = Z.land a b.
Proof. intros Hb. by rewrite <- Z.land_assoc, (byte_mask b). Qed.

Lemma lor_byte (a b : Z) :
  0 <= a <= 255 -> 0 <= b <= 255 -> Z.land (Z.lor a b) 255 = Z.lor a b.
Proof. intros Ha Hb. by rewrite Z.land_lor_distr_l, !byte_mask. Qed.

Lemma lxor_byte (a b : Z) :
  0 <= a <= 255 -> 0 <= b <= 255 -> Z.land (Z.lxor a b) 255 = Z.lxor a b.
Proof.
  intros Ha Hb.
  rewrite <- (byte_mask a Ha) at 2. rewrite <- (byte_mask b Hb) at 2.
  apply Z.bits_inj'. intros n Hn.
  rewrite Z.land_spec, !Z.lxor_spec, !Z.land_spec.
  by destruct (Z.testbit a n), (Z.testbit b n), (Z.testbit 255 n).
Qed.

(** ** The properties of [execute] *)

(** C1: for operands in [0, 255], after an ADD the flag V is set exactly when
    the operands have the same bit 7 and the masked result has the other one;
    after a SUB, exactly when the operands differ in bit 7 and the masked
    result differs from the first operand in bit 7. *)
Theorem overflow_flag_add_sub (a b : Z) (s : state) :
  0 <= a <= 255 -> 0 <= b <= 255 ->
  (exists r d,
      call a b OP_ADD s = Return (r, d) /\ r = Z.land (a + b) 255 /\
      flag_is d "V"
        (Z.testbit a 7 = Z.testbit b 7 /\ Z.testbit r 7 <> Z.testbit a 7)) /\
  (exists r d,
      call a b OP_SUB s = Return (r, d) /\ r = Z.land (a - b) 255 /\
      flag_is d "V"
        (Z.testbit a 7 <> Z.testbit b 7 /\ Z.testbit r 7 <> Z.testbit a 7)).
Proof.
  intros Ha Hb. split.
  all: rewrite call_valid by (unfold valid_opcode, OP_ADD, OP_SUB; lia).
  all: rewrite !byte_mask by done.
  all: eexists _, _; split; [reflexivity|].
  all: split; [reflexivity|].
  all: eapply flag_is_b2z; [apply flags_of_V|].
  all: unfold overflow_of, value_of; decide_opcode; rewrite !sign_bit_eqb.
  all: destruct (Z.testbit a 7), (Z.testbit b 7), (Z.testbit (Z.land _ 255) 7).
  all: cbn; intuition congruence.
Qed.

Lemma overflow_flag_add_sub_witness :
  (exists r d,
      call 100 50 OP_ADD power_on = Return (r, d) /\ r = 150 /\
      flag_is d "V"
        (Z.testbit 100 7 = Z.testbit 50 7 /\ Z.testbit r 7 <> Z.testbit 100 7)) /\
  (exists r d,
      call 100 50 OP_SUB power_on = Return (r, d) /\ r = 50 /\
      flag_is d "V"
        (Z.testbit 100 7 <> Z.testbit 50 7 /\ Z.testbit r 7 <> Z.testbit 100 7)).
Proof. apply (overflow_flag_add_sub 100 50 power_on); lia. Defined.

(** C2: for operands in [0, 255], ADD returns [(a + b) & 0xFF] and sets the
    flag C exactly when [a + b] exceeds 255. *)
Theorem add_result_and_carry (a b : Z) (s : state) :
  0 <= a <= 255 -> 0 <= b <= 255 ->
  exists d,
    call a b OP_ADD s = Return (Z.land (a + b) 255, d) /\
    flag_is d "C" (a + b > 255).
Proof.
  intros Ha Hb.
  rewrite call_valid by (unfold valid_opcode, OP_ADD; lia).
  rewrite !byte_mask by done.
  eexists; split; [reflexivity|].
  eapply flag_is_b2z; [apply flags_of_C|].
  unfold carry_of; decide_opcode. rewrite Z.ltb_lt. lia.
Qed.

Lemma add_result_and_carry_witness :
  exists d,
    call 200 100 OP_ADD power_on = Return (44, d) /\
    flag_is d "C" (200 + 100 > 255).
Proof. apply (add_result_and_carry 200 100 power_on); lia. Defined.

(** C3: for operands in [0, 255], SUB returns [(a - b) & 0xFF], which is the
    difference modulo 256, and sets the flag C exactly when [a < b]. *)
Theorem sub_result_and_borrow (a b : Z) (s : state) :
  0 <= a <= 255 -> 0 <= b <= 255 ->
  exists d,
    call a b OP_SUB s = Return (Z.land (a - b) 255, d) /\
    Z.land (a - b) 255 = (a - b) mod 256 /\
    flag_is d "C" (a < b).
Proof.
  intros Ha Hb.
  rewrite call_valid by (unfold valid_opcode, OP_SUB; lia).
  rewrite !byte_mask by done.
  eexists; split; [reflexivity|]. split.
  - change 255 with (Z.ones 8). by rewrite Z.land_ones by lia.
  - eapply flag_is_b2z; [apply flags_of_C|].
    unfold carry_of; decide_opcode. rewrite Z.ltb_lt. lia.
Qed.

Lemma sub_result_and_borrow_witness :
  exists d,
    call 5 10 OP_SUB power_on = Return (251, d) /\
    Z.land (5 - 10) 255 = (5 - 10) mod 256 /\
    flag_is d "C" (5 < 10).
Proof. apply (sub_result_and_borrow 5 10 power_on); lia. Defined.

(** C4: for operands in [0, 255], AND, OR and XOR return [a & b], [a | b]
    and [a ^ b], each equal to its own 8-bit mask, and AND, OR, XOR and NOT
    leave the flags C and V at 0. *)
Theorem logic_results_and_flags (a b : Z) (s : state) :
  0 <= a <= 255 -> 0 <= b <= 255 ->
  (exists d, call a b OP_AND s = Return (Z.land a b, d)) /\
  (exists d, call a b OP_OR s = Return (Z.lor a b, d)) /\
  (exists d, call a b OP_XOR s = Return (Z.lxor a b, d)) /\
  Z.land (Z.land a b) 255 = Z.land a b /\
  Z.land (Z.lor a b) 255 = Z.lor a b /\
  Z.land (Z.lxor a b) 255 = Z.lxor a b /\
  (forall opcode, In opcode [OP_AND; OP_OR; OP_XOR; OP_NOT] ->
     exists r d,
       call a b opcode s = Return (r, d) /\
       d !! "C" = Some 0 /\ d !! "V" = Some 0).
Proof.
  intros Ha Hb.
  pose proof (land_byte a b Hb) as Eand.
  pose proof (lor_byte a b Ha Hb) as Eor.
  pose proof (lxor_byte a b Ha Hb) as Exor.
  repeat split; try done.
  - rewrite call_valid by (unfold valid_opcode, OP_AND; lia).
    rewrite !byte_mask by done. unfold value_of; decide_opcode.
    rewrite Eand. by eexists.
  - rewrite call_valid by (unfold valid_opcode, OP_OR; lia).
    rewrite !byte_mask by done. unfold value_of; decide_opcode.
    rewrite Eor. by eexists.
  - rewrite call_valid by (unfold valid_opcode, OP_XOR; lia).
    rewrite !byte_mask by done. unfold value_of; decide_opcode.
    rewrite Exor. by eexists.
  - intros opcode Hin.
    assert (valid_opcode opcode) as Hop.
    { unfold valid_opcode. cbn in Hin.
      unfold OP_AND, OP_OR, OP_XOR, OP_NOT in Hin. lia. }
    rewrite call_valid by done.
    eexists _, _; split; [reflexivity|].
    rewrite flags_of_C, flags_of_V.
    cbn in Hin. destruct Hin as [<-|[<-|[<-|[<-|[]]]]].
    all: unfold carry_of, overflow_of; decide_opcode; done.
Qed.

Lemma logic_results_and_flags_witness :
  (exists d, call 172 240 OP_AND power_on = Return (160, d)) /\
  (exists d, call 172 240 OP_OR power_on = Return (252, d)) /\
  (exists d, call 172 240 OP_XOR power_on = Return (92, d)) /\
  Z.land (Z.land 172 240) 255 = Z.land 172 240 /\
  Z.land (Z.lor 172 240) 255 = Z.lor 172 240 /\
  Z.land (Z.lxor 172 240) 255 = Z.lxor 172 240 /\
  (forall opcode, In opcode [OP_AND; OP_OR; OP_XOR; OP_NOT] ->
     exists r d,
       call 172 240 opcode power_on = Return (r, d) /\
       d !! "C" = Some 0 /\ d !! "V" = Some 0).
Proof. apply (logic_results_and_flags 172 240 power_on); lia. Defined.

(** C5: for a first operand in [0, 255], NOT returns [(~a) & 0xFF], and the
    whole output of the call is the same for any two second operands. *)
Theorem not_ignores_second_operand (a b b' : Z) (s : state) :
  0 <= a <= 255 ->
  (exists d, call a b OP_NOT s = Return (Z.land (Z.lnot a) 255, d)) /\
  call a b OP_NOT s = call a b' OP_NOT s.
Proof.
  intros Ha.
  rewrite !call_valid by (unfold valid_opcode, OP_NOT; lia).
  rewrite (byte_mask a) by done.
  unfold flags_of, value_of, carry_of, overflow_of; decide_opcode.
  split; [by eexists | reflexivity].
Qed.

Lemma not_ignores_second_operand_witness :
  (exists d, call 255 0 OP_NOT power_on = Return (0, d)) /\
  call 255 0 OP_NOT power_on = call 255 77 OP_NOT power_on.
Proof. apply (not_ignores_second_operand 255 0 77 power_on); lia. Defined.

(** C6: for all operands and each of the six opcodes, the call returns a
    result and flags with Z set exactly when the result is 0 and N set
    exactly when the result meets the mask [0x80]. *)
Theorem zero_and_negative_flags (a b opcode : Z) (s : state) :
  valid_opcode opcode ->
  exists r d,
    call a b opcode s = Return (r, d) /\
    flag_is d "Z" (r = 0) /\
    flag_is d "N" (Z.land r 128 <> 0).
Proof.
  intros Hop. rewrite call_valid by done.
  eexists _, _; split; [reflexivity|]. split.
  - eapply flag_is_b2z; [apply flags_of_Z|]. apply Z.eqb_eq.
  - eapply flag_is_b2z; [apply flags_of_N|].
    unfold truthy. rewrite negb_true_iff. apply Z.eqb_neq.
Qed.

Lemma zero_and_negative_flags_witness :
  exists r d,
    call 5 10 OP_SUB power_on = Return (r, d) /\
    flag_is d "Z" (r = 0) /\
    flag_is d "N" (Z.land r 128 <> 0).
Proof.
  apply (zero_and_negative_flags 5 10 OP_SUB power_on).
  unfold valid_opcode, OP_SUB. lia.
Defined.

(** C7: for all integer operands, negative ones included, and each of the
    six opcodes, the call returns, and returns what the call on the low 8
    bits of the operands returns. *)
Theorem operands_are_masked (a b opcode : Z) (s : state) :
  valid_opcode opcode ->
  (exists r d, call a b opcode s = Return (r, d)) /\
  call a b opcode s = call (Z.land a 255) (Z.land b 255) opcode s.
Proof.
  intros Hop. rewrite !call_valid by done. rewrite !mask_mask.
  split; [by eexists _, _ | reflexivity].
Qed.

Lemma operands_are_masked_witness :
  (exists r d, call (-1) 300 OP_ADD power_on = Return (r, d)) /\
  call (-1) 300 OP_ADD power_on =
  call (Z.land (-1) 255) (Z.land 300 255) OP_ADD power_on.
Proof.
  apply (operands_are_masked (-1) 300 OP_ADD power_on).
  unfold valid_opcode, OP_ADD. lia.
Defined.

(** C8: for all operands and each of the six opcodes, a call returns the same
    result and flags from every engine state; calling again right after
    returns them once more, and leaves the dict handed out by the first call
    as it was. *)
Theorem execute_is_state_independent (a b opcode : Z) (s1 s2 : state) :
  valid_opcode opcode ->
  exists r d l s1',
    execute a b opcode s1 = (Return (r, l), s1') /\
    deref (fst s1') l = d /\
    call a b opcode s1 = Return (r, d) /\
    call a b opcode s2 = Return (r, d) /\
    call a b opcode s1' = Return (r, d) /\
    deref (fst (after a b opcode s1')) l = d.
Proof.
  intros Hop. destruct s1 as [h alu].
  pose proof (execute_valid a b opcode h alu Hop) as E. cbv zeta in E.
  eexists _, _, _, _. split; [exact E|].
  assert (forall (h' : heap) (l : loc) (d : dict),
             deref (<[l := d]> h') l = d) as Hderef.
  { intros. unfold deref. by rewrite lookup_insert_eq. }
  cbn [fst]. rewrite Hderef.
  repeat split; try by rewrite call_valid.
  unfold after, deref.
  erewrite execute_frame; [done|].
  cbn [fst]. apply lookup_insert_eq.
Qed.

Lemma execute_is_state_independent_witness :
  exists r d l s1',
    execute 100 50 OP_ADD power_on = (Return (r, l), s1') /\
    deref (fst s1') l = d /\
    call 100 50 OP_ADD power_on = Return (r, d) /\
    call 100 50 OP_ADD (after 5 10 OP_SUB power_on) = Return (r, d) /\
    call 100 50 OP_ADD s1' = Return (r, d) /\
    deref (fst (after 100 50 OP_ADD s1')) l = d.
Proof.
  apply (execute_is_state_independent 100 50 OP_ADD power_on
           (after 5 10 OP_SUB power_on)).
  unfold valid_opcode, OP_ADD. lia.
Defined.

(** C9: for all operands and every opcode outside 0..5, the call raises the
    invalid-opcode error ([ValueError] in the source) and returns nothing. *)
Theorem invalid_opcode_raises (a b opcode : Z) (s : state) :
  ~ valid_opcode opcode ->
  fst (execute a b opcode s) = Raise (ValueError opcode) /\
  call a b opcode s = Raise (ValueError opcode).
Proof.
  intros Hop. split; [|by apply call_invalid].
  destruct s as [h alu]. by rewrite (execute_invalid a b opcode h alu Hop).
Qed.

Lemma invalid_opcode_raises_witness :
  fst (execute 1 2 6 power_on) = Raise (ValueError 6) /\
  call 1 2 6 power_on = Raise (ValueError 6).
Proof.
  apply (invalid_opcode_raises 1 2 6 power_on).
  unfold valid_opcode. lia.
Defined.

(** C10: a call with an opcode outside 0..5 raises with the engine half
    updated: [self.result] is what it was before the call, and [self.flags]
    is already a dict with all four flags at 0. *)
Theorem invalid_opcode_resets_flags_only (a b opcode : Z) (s : state) :
  ~ valid_opcode opcode ->
  fst (execute a b opcode s) = Raise (ValueError opcode) /\
  result (snd (after a b opcode s)) = result (snd s) /\
  stored_flags (after a b opcode s) = cleared_flags.
Proof.
  intros Hop. destruct s as [h alu]. unfold after, stored_flags.
  rewrite (execute_invalid a b opcode h alu Hop). cbn [fst snd result flags].
  repeat split. unfold deref. by rewrite lookup_insert_eq.
Qed.

Lemma invalid_opcode_resets_flags_only_witness :
  (result (snd after_add_carry) = 44 /\
   stored_flags after_add_carry !! "C" = Some 1) /\
  fst (execute 1 2 6 after_add_carry) = Raise (ValueError 6) /\
  result (snd (after 1 2 6 after_add_carry)) = result (snd after_add_carry) /\
  stored_flags (after 1 2 6 after_add_carry) = cleared_flags.
Proof.
  split; [split; vm_compute; reflexivity|].
  apply (invalid_opcode_resets_flags_only 1 2 6 after_add_carry).
  unfold valid_opcode. lia.
Defined.

(** ** More on the engine: results, objects and invariants *)

Lemma valid_OP_ADD : valid_opcode OP_ADD.
Proof. unfold valid_opcode, OP_ADD. lia. Qed.

Lemma valid_OP_SUB : valid_opcode OP_SUB.
Proof. unfold valid_opcode, OP_SUB. lia. Qed.

Lemma valid_OP_NOT : valid_opcode OP_NOT.
Proof. unfold valid_opcode, OP_NOT. lia. Qed.

Lemma value_of_range (a b opcode : Z) : 0 <= value_of a b opcode <= 255.
Proof.
  unfold value_of.
  repeat match goal with |- context [if ?c then _ else _] => destruct c end.
  all: apply mask_range.
Qed.

Lemma dom_cleared_flags : dom cleared_flags = ({["Z"; "N"; "C"; "V"]} : gset string).
Proof.
  unfold cleared_flags. rewrite !dom_insert_L, dom_empty_L.
  by rewrite (right_id_L ∅ (∪)).
Qed.

Lemma dom_set_if (c : bool) (k : string) (d : dict) (X : gset string) :
  k ∈ X -> dom d = X -> dom (set_if c k d) = X.
Proof.
  intros Hk <-. destruct c; cbn [set_if]; [|done].
  rewrite dom_insert_L. apply subseteq_union_1_L.
  by apply singleton_subseteq_l.
Qed.

Lemma dom_flags_of (a b opcode : Z) :
  dom (flags_of a b opcode) = ({["Z"; "N"; "C"; "V"]} : gset string).
Proof.
  unfold flags_of.
  repeat (apply dom_set_if; [set_solver|]).
  apply dom_cleared_flags.
Qed.

Lemma cleared_flags_values (k : string) (v : Z) :
  cleared_flags !! k = Some v -> v = 0 \/ v = 1.
Proof.
  unfold cleared_flags. intros H.
  repeat (apply lookup_insert_Some in H as [[_ <-]|[_ H]]; [by left|]).
  by rewrite lookup_empty in H.
Qed.

Lemma set_if_values (c : bool) (k0 : string) (d : dict) :
  (forall k v, d !! k = Some v -> v = 0 \/ v = 1) ->
  forall k v, set_if c k0 d !! k = Some v -> v = 0 \/ v = 1.
Proof.
  intros Hd k v. destruct c; cbn [set_if]; [|apply Hd].
  intros [[_ <-]|[_ H]]%lookup_insert_Some; [by right|by eapply Hd].
Qed.

Lemma flags_of_values (a b opcode : Z) (k : string) (v : Z) :
  flags_of a b opcode !! k = Some v -> v = 0 \/ v = 1.
Proof.
  unfold flags_of. revert k v.
  do 4 apply set_if_values. apply cleared_flags_values.
Qed.

Lemma engine_ok_init (h : heap) : engine_ok (init h).
Proof.
  unfold engine_ok, init, alloc; cbn [fst snd result flags].
  split; [lia|]. exists cleared_flags.
  rewrite lookup_insert_eq.
  split; [done|]. split; [apply dom_cleared_flags|apply cleared_flags_values].
Qed.

Lemma engine_ok_after (a b opcode : Z) (s : state) :
  engine_ok s -> engine_ok (after a b opcode s).
Proof.
  destruct s as [h alu]. intros [Hr _]. cbn [snd] in Hr.
  unfold after, engine_ok.
  destruct (decide (valid_opcode opcode)) as [Hop|Hop].
  - rewrite (execute_valid a b opcode h alu Hop). cbn [fst snd result flags].
    split; [apply value_of_range|].
    eexists. split; [|split; [apply dom_flags_of|apply flags_of_values]].
    rewrite lookup_insert_ne; [apply lookup_insert_eq|].
    eapply fresh_dom_ne, lookup_insert_eq.
  - rewrite (execute_invalid a b opcode h alu Hop). cbn [fst snd result flags].
    split; [done|]. exists cleared_flags.
    rewrite lookup_insert_eq.
    split; [done|]. split; [apply dom_cleared_flags|apply cleared_flags_values].
Qed.

(** Bit 7 of a byte is set exactly from 128 on. *)
Lemma byte_testbit7 (x : Z) : 0 <= x <= 255 -> Z.testbit x 7 = (128 <=? x).
Proof.
  intros Hx. destruct (Z.leb_spec 128 x) as [H|H].
  - apply Z.testbit_true; [lia|].
    replace x with (1 * 2 ^ 7 + (x - 128)) by lia.
    rewrite Z.div_add_l by lia. rewrite (Z.div_small (x - 128)) by lia.
    reflexivity.
  - apply Z.testbit_false; [lia|].
    rewrite Z.div_small by lia. reflexivity.
Qed.

Lemma land_255_mod (x : Z) : Z.land x 255 = x mod 256.
Proof. change 255 with (Z.ones 8). by rewrite Z.land_ones by lia. Qed.

Lemma add_wraps (a b : Z) :
  0 <= a <= 255 -> 0 <= b <= 255 ->
  Z.land (a + b) 255 = if 255 <? a + b then a + b - 256 else a + b.
Proof.
  intros Ha Hb. rewrite land_255_mod.
  destruct (Z.ltb_spec 255 (a + b)).
  - symmetry. apply (Z.mod_unique _ _ 1); lia.
  - apply Z.mod_small. lia.
Qed.

Lemma sub_wraps (a b : Z) :
  0 <= a <= 255 -> 0 <= b <= 255 ->
  Z.land (a - b) 255 = if a - b <? 0 then a - b + 256 else a - b.
Proof.
  intros Ha Hb. rewrite land_255_mod.
  destruct (Z.ltb_spec (a - b) 0).
  - symmetry. apply (Z.mod_unique _ _ (-1)); lia.
  - apply Z.mod_small. lia.
Qed.

Lemma lnot_byte (a : Z) : 0 <= a <= 255 -> Z.land (Z.lnot a) 255 = 255 - a.
Proof.
  intros Ha. rewrite land_255_mod. unfold Z.lnot.
  symmetry. apply (Z.mod_unique _ _ (-1)); lia.
Qed.

(** The overflow test of the engine on bytes, as comparisons with 128. *)
Lemma overflow_of_bytes (a b opcode r : Z) :
  0 <= a <= 255 -> 0 <= b <= 255 -> 0 <= r <= 255 ->
  overflow_of a b opcode r =
  if opcode =? OP_ADD then
    eqb (128 <=? a) (128 <=? b) && negb (eqb (128 <=? a) (128 <=? r))
  else if opcode =? OP_SUB then
    negb (eqb (128 <=? a) (128 <=? b)) && negb (eqb (128 <=? a) (128 <=? r))
  else false.
Proof.
  intros Ha Hb Hr. unfold overflow_of.
  by rewrite !sign_bit_eqb, !byte_testbit7.
Qed.

(** X1: a valid call returns a byte, keeps it in [self.result], and hands
    back a dict that is another object than [self.flags] with the same
    items; neither object existed before the call. *)
Theorem valid_call_stores_and_copies (a b opcode : Z) (s : state) :
  valid_opcode opcode ->
  exists r l d,
    execute a b opcode s = (Return (r, l), after a b opcode s) /\
    0 <= r <= 255 /\
    result (snd (after a b opcode s)) = r /\
    fst (after a b opcode s) !! l = Some d /\
    fst (after a b opcode s) !! flags (snd (after a b opcode s)) = Some d /\
    l <> flags (snd (after a b opcode s)) /\
    fst s !! l = None /\
    fst s !! flags (snd (after a b opcode s)) = None.
Proof.
  intros Hop. destruct s as [h alu]. unfold after.
  rewrite (execute_valid a b opcode h alu Hop). cbn [fst snd result flags].
  set (d := flags_of _ _ _). set (l1 := fresh (dom h)).
  set (l2 := fresh (dom (<[l1 := d]> h))).
  assert (l2 <> l1) as Hne.
  { eapply fresh_dom_ne, lookup_insert_eq. }
  assert (h !! l1 = None) as Hl1.
  { apply not_elem_of_dom, is_fresh. }
  assert (<[l1 := d]> h !! l2 = None) as Hl2.
  { apply not_elem_of_dom, is_fresh. }
  exists (value_of (Z.land a 255) (Z.land b 255) opcode), l2, d.
  split; [done|]. split; [apply value_of_range|]. split; [done|].
  split; [apply lookup_insert_eq|].
  split; [rewrite lookup_insert_ne by done; apply lookup_insert_eq|].
  split; [done|]. split; [|done].
  by rewrite lookup_insert_ne in Hl2.
Qed.

Lemma valid_call_stores_and_copies_witness :
  exists r l d,
    execute 200 100 OP_ADD power_on = (Return (r, l), after_add_carry) /\
    0 <= r <= 255 /\
    result (snd after_add_carry) = r /\
    fst after_add_carry !! l = Some d /\
    fst after_add_carry !! flags (snd after_add_carry) = Some d /\
    l <> flags (snd after_add_carry) /\
    fst power_on !! l = None /\
    fst power_on !! flags (snd after_add_carry) = None.
Proof. apply (valid_call_stores_and_copies 200 100 OP_ADD power_on), valid_OP_ADD. Defined.

(** X2: from a new engine, after any run of calls, valid or not, the stored
    result is a byte and the stored flags are a dict with exactly the keys
    'Z', 'N', 'C', 'V' and values 0 or 1. *)
Theorem engine_ok_after_calls (h : heap) (l : list (Z * Z * Z)) :
  engine_ok (calls l (init h)).
Proof.
  unfold calls. generalize (engine_ok_init h). generalize (init h).
  induction l as [|c l IH]; intros s Hs; [done|].
  cbn [foldl]. apply IH. by apply engine_ok_after.
Qed.

(** X3: a call, whatever its opcode, leaves every dict that existed before
    it as it was: the flags returned by earlier calls and the dict that
    [self.flags] referred to are never written to. *)
Theorem execute_keeps_old_dicts (a b opcode : Z) (s : state) (l : loc) (d : dict) :
  fst s !! l = Some d -> fst (after a b opcode s) !! l = Some d.
Proof. intros Hl. unfold after. by apply execute_frame. Qed.

Lemma execute_keeps_old_dicts_witness :
  fst (after 1 2 6 after_add_carry) !! flags (snd after_add_carry) =
  Some (<["C" := 1]> cleared_flags).
Proof.
  apply (execute_keeps_old_dicts 1 2 6 after_add_carry).
  vm_compute. reflexivity.
Defined.

(** X4: no valid call returns flags with both Z and N set. *)
Theorem zero_and_negative_exclude (a b opcode : Z) (s : state) :
  valid_opcode opcode ->
  exists r d,
    call a b opcode s = Return (r, d) /\
    ~ (d !! "Z" = Some 1 /\ d !! "N" = Some 1).
Proof.
  intros Hop. rewrite call_valid by done.
  eexists _, _; split; [reflexivity|].
  rewrite flags_of_Z, flags_of_N. intros [HZ HN].
  destruct (Z.eqb_spec (value_of (Z.land a 255) (Z.land b 255) opcode) 0)
    as [E|E]; [|discriminate HZ].
  rewrite E in HN. discriminate HN.
Qed.

Lemma zero_and_negative_exclude_witness :
  exists r d,
    call 10 10 OP_SUB power_on = Return (r, d) /\
    ~ (d !! "Z" = Some 1 /\ d !! "N" = Some 1).
Proof. apply (zero_and_negative_exclude 10 10 OP_SUB power_on), valid_OP_SUB. Defined.

(** X5: SUB compares two bytes: Z is set exactly when they are equal and C
    exactly when the first is the smaller one. *)
Theorem sub_compares (a b : Z) (s : state) :
  0 <= a <= 255 -> 0 <= b <= 255 ->
  exists r d,
    call a b OP_SUB s = Return (r, d) /\
    flag_is d "Z" (a = b) /\
    flag_is d "C" (a < b).
Proof.
  intros Ha Hb. rewrite call_valid by apply valid_OP_SUB.
  rewrite !byte_mask by done.
  eexists _, _; split; [reflexivity|]. split.
  - eapply flag_is_b2z; [apply flags_of_Z|].
    unfold value_of; decide_opcode. rewrite sub_wraps by done.
    rewrite Z.eqb_eq. destruct (Z.ltb_spec (a - b) 0); lia.
  - eapply flag_is_b2z; [apply flags_of_C|].
    unfold carry_of; decide_opcode. rewrite Z.ltb_lt. lia.
Qed.

Lemma sub_compares_witness :
  exists r d,
    call 5 10 OP_SUB power_on = Return (r, d) /\
    flag_is d "Z" (5 = 10) /\
    flag_is d "C" (5 < 10).
Proof. apply (sub_compares 5 10 power_on); lia. Defined.

(** X6: read as two's-complement numbers by [to_signed_8bit], the operands
    of an ADD on bytes set V exactly when their sum does not fit in
    -128..127, which is exactly when the signed result is not the sum. *)
Theorem add_overflow_is_signed_overflow (a b : Z) (s : state) :
  0 <= a <= 255 -> 0 <= b <= 255 ->
  exists r d,
    call a b OP_ADD s = Return (r, d) /\
    flag_is d "V"
      (~ (-128 <= to_signed_8bit a + to_signed_8bit b <= 127)) /\
    flag_is d "V"
      (to_signed_8bit r <> to_signed_8bit a + to_signed_8bit b).
Proof.
  intros Ha Hb. rewrite call_valid by apply valid_OP_ADD.
  rewrite !byte_mask by done.
  eexists _, _; split; [reflexivity|].
  pose proof (value_of_range a b OP_ADD) as Hr.
  split.
  all: eapply flag_is_b2z; [apply flags_of_V|].
  all: rewrite overflow_of_bytes by done; decide_opcode.
  all: revert Hr; unfold value_of, to_signed_8bit; decide_opcode.
  all: rewrite add_wraps by done; destruct (Z.ltb_spec 255 (a + b)); intros Hr.
  all: repeat match goal with
         | |- context [Z.leb ?x ?y] => destruct (Z.leb_spec x y)
         | |- context [Z.ltb ?x ?y] => destruct (Z.ltb_spec x y)
         end.
  all: cbn; split; intros; try discriminate; try reflexivity; try lia.
  all: try (exfalso; lia).
Qed.

Lemma add_overflow_is_signed_overflow_witness :
  exists r d,
    call 100 50 OP_ADD power_on = Return (r, d) /\
    flag_is d "V"
      (~ (-128 <= to_signed_8bit 100 + to_signed_8bit 50 <= 127)) /\
    flag_is d "V"
      (to_signed_8bit r <> to_signed_8bit 100 + to_signed_8bit 50).
Proof. apply (add_overflow_is_signed_overflow 100 50 power_on); lia. Defined.

(** X7: likewise a SUB on bytes sets V exactly when the difference of the
    signed operands does not fit in -128..127, which is exactly when the
    signed result is not that difference. *)
Theorem sub_overflow_is_signed_overflow (a b : Z) (s : state) :
  0 <= a <= 255 -> 0 <= b <= 255 ->
  exists r d,
    call a b OP_SUB s = Return (r, d) /\
    flag_is d "V"
      (~ (-128 <= to_signed_8bit a - to_signed_8bit b <= 127)) /\
    flag_is d "V"
      (to_signed_8bit r <> to_signed_8bit a - to_signed_8bit b).
Proof.
  intros Ha Hb. rewrite call_valid by apply valid_OP_SUB.
  rewrite !byte_mask by done.
  eexists _, _; split; [reflexivity|].
  pose proof (value_of_range a b OP_SUB) as Hr.
  split.
  all: eapply flag_is_b2z; [apply flags_of_V|].
  all: rewrite overflow_of_bytes by done; decide_opcode.
  all: revert Hr; unfold value_of, to_signed_8bit; decide_opcode.
  all: rewrite sub_wraps by done; destruct (Z.ltb_spec (a - b) 0); intros Hr.
  all: repeat match goal with
         | |- context [Z.leb ?x ?y] => destruct (Z.leb_spec x y)
         | |- context [Z.ltb ?x ?y] => destruct (Z.ltb_spec x y)
         end.
  all: cbn; split; intros; try discriminate; try reflexivity; try lia.
  all: try (exfalso; lia).
Qed.

Lemma sub_overflow_is_signed_overflow_witness :
  exists r d,
    call 0 128 OP_SUB power_on = Return (r, d) /\
    flag_is d "V"
      (~ (-128 <= to_signed_8bit 0 - to_signed_8bit 128 <= 127)) /\
    flag_is d "V"
      (to_signed_8bit r <> to_signed_8bit 0 - to_signed_8bit 128).
Proof. apply (sub_overflow_is_signed_overflow 0 128 power_on); lia. Defined.

(** X8: on bytes, the result and the flag C together hold the exact sum or
    difference: [a + b = r + 256 * C] after an ADD and [a - b = r - 256 * C]
    after a SUB. *)
Theorem carry_completes_result (a b : Z) (s : state) :
  0 <= a <= 255 -> 0 <= b <= 255 ->
  (exists r d c,
      call a b OP_ADD s = Return (r, d) /\ d !! "C" = Some c /\
      a + b = r + 256 * c) /\
  (exists r d c,
      call a b OP_SUB s = Return (r, d) /\ d !! "C" = Some c /\
      a - b = r - 256 * c).
Proof.
  intros Ha Hb. split.
  - rewrite call_valid by apply valid_OP_ADD. rewrite !byte_mask by done.
    eexists _, _, _; split; [reflexivity|]. split; [apply flags_of_C|].
    unfold value_of, carry_of; decide_opcode. rewrite add_wraps by done.
    destruct (255 <? a + b); cbn [Z.b2z]; lia.
  - rewrite call_valid by apply valid_OP_SUB. rewrite !byte_mask by done.
    eexists _, _, _; split; [reflexivity|]. split; [apply flags_of_C|].
    unfold value_of, carry_of; decide_opcode. rewrite sub_wraps by done.
    destruct (a - b <? 0); cbn [Z.b2z]; lia.
Qed.

Lemma carry_completes_result_witness :
  (exists r d c,
      call 200 100 OP_ADD power_on = Return (r, d) /\ d !! "C" = Some c /\
      200 + 100 = r + 256 * c) /\
  (exists r d c,
      call 200 100 OP_SUB power_on = Return (r, d) /\ d !! "C" = Some c /\
      200 - 100 = r - 256 * c).
Proof. apply (carry_completes_result 200 100 power_on); lia. Defined.

(** X9: NOT of a byte [a] is [255 - a], with N set exactly when [a] is below
    128 and Z exactly when [a] is 255; NOT of that result gives [a] back. *)
Theorem not_is_complement (a b b' : Z) (s s' : state) :
  0 <= a <= 255 ->
  exists d d',
    call a b OP_NOT s = Return (255 - a, d) /\
    flag_is d "N" (a < 128) /\
    flag_is d "Z" (a = 255) /\
    call (255 - a) b' OP_NOT s' = Return (a, d').
Proof.
  intros Ha. rewrite !call_valid by apply valid_OP_NOT.
  rewrite (byte_mask a), (byte_mask (255 - a)) by lia.
  assert (value_of a (Z.land b 255) OP_NOT = 255 - a) as E.
  { unfold value_of; decide_opcode. by apply lnot_byte. }
  assert (value_of (255 - a) (Z.land b' 255) OP_NOT = a) as E'.
  { unfold value_of; decide_opcode. rewrite lnot_byte by lia. lia. }
  rewrite E'. eexists _, _.
  split; [by rewrite E|].
  split; [|split; [|reflexivity]].
  - eapply flag_is_b2z; [apply flags_of_N|].
    rewrite E, land_128_testbit, byte_testbit7 by lia.
    rewrite Z.leb_le. lia.
  - eapply flag_is_b2z; [apply flags_of_Z|].
    rewrite E, Z.eqb_eq. lia.
Qed.

Lemma not_is_complement_witness :
  exists d d',
    call 172 0 OP_NOT power_on = Return (255 - 172, d) /\
    flag_is d "N" (172 < 128) /\
    flag_is d "Z" (172 = 255) /\
    call (255 - 172) 9 OP_NOT after_add_carry = Return (172, d').
Proof. apply (not_is_complement 172 0 9 power_on after_add_carry); lia. Defined.

(** X10: on bytes, SUB returns what ADD returns for the first operand and the
    two's complement of the second, the NOT of it plus one; the flags Z and N
    of the two calls agree. *)
Theorem sub_is_add_of_complement (a b x : Z) (s1 s2 s3 : state) :
  0 <= a <= 255 -> 0 <= b <= 255 ->
  exists n dn r d d',
    call b x OP_NOT s1 = Return (n, dn) /\
    call a b OP_SUB s2 = Return (r, d) /\
    call a (n + 1) OP_ADD s3 = Return (r, d') /\
    d !! "Z" = d' !! "Z" /\ d !! "N" = d' !! "N".
Proof.
  intros Ha Hb.
  pose proof (call_valid b x OP_NOT s1 valid_OP_NOT) as E1.
  pose proof (call_valid a b OP_SUB s2 valid_OP_SUB) as E2.
  rewrite (byte_mask b) in E1, E2 by done. rewrite (byte_mask a) in E2 by done.
  eexists _, _, _, _, _.
  split; [exact E1|]. split; [exact E2|].
  rewrite call_valid by apply valid_OP_ADD. rewrite (byte_mask a) by done.
  assert (value_of a (Z.land (value_of b (Z.land x 255) OP_NOT + 1) 255) OP_ADD
          = value_of a b OP_SUB) as E.
  { unfold value_of; decide_opcode.
    rewrite lnot_byte by done. rewrite !land_255_mod.
    rewrite Zplus_mod_idemp_r.
    replace (a + (255 - b + 1)) with (a - b + 1 * 256) by lia.
    apply Z.mod_add. lia. }
  split; [by rewrite E|].
  by rewrite !flags_of_Z, !flags_of_N, E.
Qed.

Lemma sub_is_add_of_complement_witness :
  exists n dn r d d',
    call 10 0 OP_NOT power_on = Return (n, dn) /\
    call 5 10 OP_SUB power_on = Return (r, d) /\
    call 5 (n + 1) OP_ADD power_on = Return (r, d') /\
    d !! "Z" = d' !! "Z" /\ d !! "N" = d' !! "N".
Proof. apply (sub_is_add_of_complement 5 10 0 power_on power_on power_on); lia. Defined.

(** X11: ADD, AND, OR and XOR do not care for the order of their operands:
    swapping them gives the same result and the same flags, for all
    integers. *)
Theorem symmetric_operations (a b opcode : Z) (s : state) :
  In opcode [OP_ADD; OP_AND; OP_OR; OP_XOR] ->
  call a b opcode s = call b a opcode s.
Proof.
  intros Hin.
  assert (valid_opcode opcode) as Hop.
  { unfold valid_opcode. cbn in Hin.
    unfold OP_ADD, OP_AND, OP_OR, OP_XOR in Hin. lia. }
  rewrite !call_valid by done.
  set (a' := Z.land a 255). set (b' := Z.land b 255).
  assert (value_of a' b' opcode = value_of b' a' opcode) as E.
  { cbn in Hin. destruct Hin as [<-|[<-|[<-|[<-|[]]]]].
    all: unfold value_of; decide_opcode.
    - by rewrite (Z.add_comm a').
    - by rewrite (Z.land_comm a').
    - by rewrite (Z.lor_comm a').
    - by rewrite (Z.lxor_comm a'). }
  unfold flags_of. rewrite <- E. do 3 f_equal.
  - cbn in Hin. destruct Hin as [<-|[<-|[<-|[<-|[]]]]].
    all: unfold overflow_of; decide_opcode; try reflexivity.
    rewrite (Z.eqb_sym (sign_bit b')).
    destruct (Z.eqb_spec (sign_bit a') (sign_bit b')) as [->|]; reflexivity.
  - cbn in Hin. destruct Hin as [<-|[<-|[<-|[<-|[]]]]].
    all: unfold carry_of; decide_opcode; try reflexivity.
    by rewrite (Z.add_comm a').
Qed.

Lemma symmetric_operations_witness :
  call 200 100 OP_ADD power_on = call 100 200 OP_ADD power_on.
Proof.
  apply (symmetric_operations 200 100 OP_ADD power_on).
  cbn. by left.
Defined.

(** ** The signed reading of a result *)

(** X12: [to_signed_8bit] maps a byte into -128..127, negative exactly when
    bit 7 of the byte is set, and masking the signed value with [0xFF] gives
    the byte back. *)
Theorem to_signed_8bit_round_trip (v : Z) :
  0 <= v <= 255 ->
  -128 <= to_signed_8bit v <= 127 /\
  Z.land (to_signed_8bit v) 255 = v /\
  (to_signed_8bit v < 0 <-> Z.testbit v 7 = true).
Proof.
  intros Hv. rewrite byte_testbit7, Z.leb_le, land_255_mod by done.
  unfold to_signed_8bit. destruct (Z.ltb_spec 127 v).
  - split; [lia|]. split; [|lia].
    symmetry. apply (Z.mod_unique _ _ (-1)); lia.
  - split; [lia|]. split; [|lia]. apply Z.mod_small. lia.
Qed.

Lemma to_signed_8bit_round_trip_witness :
  -128 <= to_signed_8bit 251 <= 127 /\
  Z.land (to_signed_8bit 251) 255 = 251 /\
  (to_signed_8bit 251 < 0 <-> Z.testbit 251 7 = true).
Proof. apply (to_signed_8bit_round_trip 251). lia. Defined.

(** X13: the flag N of a valid call is set exactly when the signed reading
    of its result, as the display shows it, is negative. *)
Theorem negative_flag_is_signed_negative (a b opcode : Z) (s : state) :
  valid_opcode opcode ->
  exists r d,
    call a b opcode s = Return (r, d) /\
    flag_is d "N" (to_signed_8bit r < 0).
Proof.
  intros Hop. rewrite call_valid by done.
  eexists _, _; split; [reflexivity|].
  eapply flag_is_b2z; [apply flags_of_N|].
  set (r := value_of _ _ _). pose proof (value_of_range (Z.land a 255) (Z.land b 255) opcode) as Hr.
  fold r in Hr. rewrite land_128_testbit.
  symmetry. by apply to_signed_8bit_round_trip.
Qed.

Lemma negative_flag_is_signed_negative_witness :
  exists r d,
    call 5 10 OP_SUB power_on = Return (r, d) /\
    flag_is d "N" (to_signed_8bit r < 0).
Proof. apply (negative_flag_is_signed_negative 5 10 OP_SUB power_on), valid_OP_SUB. Defined.

(** ** The operation names *)

Lemma operations_invalid (opcode : Z) :
  ~ valid_opcode opcode -> operations !! opcode = None.
Proof.
  unfold valid_opcode. intros Hop. unfold operations. cbn [list_to_map foldr].
  cbn [fst snd]. rewrite !lookup_insert_ne by lia. apply lookup_empty.
Qed.

(** X14: [get_operation_name] answers "Desconocida" exactly for the opcodes
    that [execute] rejects with its ValueError. *)
Theorem unknown_name_iff_execute_raises (a b opcode : Z) (s : state) :
  get_operation_name opcode = "Desconocida" <->
  call a b opcode s = Raise (ValueError opcode).
Proof.
  destruct (decide (valid_opcode opcode)) as [Hop|Hop].
  - rewrite call_valid by done.
    destruct (valid_opcode_cases _ Hop) as [->|[->|[->|[->|[->| ->]]]]].
    all: split; intros H; exfalso; [vm_compute in H|]; discriminate H.
  - rewrite call_invalid by done.
    unfold get_operation_name. rewrite operations_invalid by done.
    done.
Qed.

Lemma name_of_invalid (opcode : Z) :
  ~ valid_opcode opcode -> get_operation_name opcode = "Desconocida".
Proof. intros Hop. unfold get_operation_name. by rewrite operations_invalid. Qed.

Lemma name_of_valid (opcode : Z) :
  valid_opcode opcode -> get_operation_name opcode <> "Desconocida".
Proof.
  intros Hop E.
  destruct (valid_opcode_cases _ Hop) as [->|[->|[->|[->|[->| ->]]]]].
  all: vm_compute in E; discriminate E.
Qed.

Lemma str_in_ADD_name (opcode : Z) :
  str_in "ADD" (get_operation_name opcode) = (opcode =? OP_ADD).
Proof.
  destruct (decide (valid_opcode opcode)) as [Hop|Hop].
  - by destruct (valid_opcode_cases _ Hop) as [->|[->|[->|[->|[->| ->]]]]].
  - rewrite (name_of_invalid _ Hop). unfold valid_opcode, OP_ADD in *.
    by rewrite (proj2 (Z.eqb_neq opcode 0)) by lia.
Qed.

Lemma str_in_SUB_name (opcode : Z) :
  str_in "SUB" (get_operation_name opcode) = (opcode =? OP_SUB).
Proof.
  destruct (decide (valid_opcode opcode)) as [Hop|Hop].
  - by destruct (valid_opcode_cases _ Hop) as [->|[->|[->|[->|[->| ->]]]]].
  - rewrite (name_of_invalid _ Hop). unfold valid_opcode, OP_SUB in *.
    by rewrite (proj2 (Z.eqb_neq opcode 1)) by lia.
Qed.

(** X15: the label of an opcode contains "ADD" exactly for OP_ADD and "SUB"
    exactly for OP_SUB, the two tests by which [update_status_bar] tells a
    carry from a borrow; two opcodes share a label only when they are equal
    or both invalid. *)
Theorem names_tell_add_and_sub (opcode opcode' : Z) :
  str_in "ADD" (get_operation_name opcode) = (opcode =? OP_ADD) /\
  str_in "SUB" (get_operation_name opcode) = (opcode =? OP_SUB) /\
  (get_operation_name opcode = get_operation_name opcode' <->
   opcode = opcode' \/ (~ valid_opcode opcode /\ ~ valid_opcode opcode')).
Proof.
  split; [apply str_in_ADD_name|split; [apply str_in_SUB_name|]].
  - split.
    + intros E.
      destruct (decide (valid_opcode opcode)) as [Hop|Hop];
        destruct (decide (valid_opcode opcode')) as [Hop'|Hop'].
      * left.
        destruct (valid_opcode_cases _ Hop) as [->|[->|[->|[->|[->| ->]]]]];
          destruct (valid_opcode_cases _ Hop') as [->|[->|[->|[->|[->| ->]]]]].
        all: first [reflexivity | vm_compute in E; discriminate E].
      * exfalso. apply (name_of_valid _ Hop).
        by rewrite E, (name_of_invalid _ Hop').
      * exfalso. apply (name_of_valid _ Hop').
        by rewrite <- E, (name_of_invalid _ Hop).
      * by right.
    + intros [->|[Hop Hop']]; [done|].
      by rewrite !name_of_invalid.
Qed.

(** ** Binary text and checkboxes *)



Lemma bytes_forall (f : Z -> bool) :
  forallb f (seqZ 0 256) = true -> forall v, 0 <= v <= 255 -> f v = true.
Proof.
  intros H v Hv. rewrite forallb_forall in H. apply H.
  apply list_elem_of_In, elem_of_seqZ. lia.
Qed.

Lemma update_binary_bits_any (value : Z) (bit_vars : list Z) :
  length bit_vars = 8%nat ->
  update_binary_bits value bit_vars = update_binary_bits value (replicate 8 0).
Proof.
  intros H.
  do 8 (destruct bit_vars as [|? bit_vars]; [discriminate H|]).
  destruct bit_vars; [|discriminate H]. reflexivity.
Qed.

(** X17: for a byte, [format(value, '08b')] has 8 characters, the loop of
    [update_binary_a] fills the 8 checkbox variables, and character and
    checkbox at each index agree: both 1 or both 0. *)
Theorem checkboxes_match_binary_text (value : Z) (bit_vars : list Z) (i : nat) :
  0 <= value <= 255 -> length bit_vars = 8%nat -> (i < 8)%nat ->
  exists bits,
    update_binary_bits value bit_vars = Some bits /\
    length bits = 8%nat /\
    String.length (format_08b value) = 8%nat /\
    ((bits !! i = Some 1 /\ String.get i (format_08b value) = Some "1"%char) \/
     (bits !! i = Some 0 /\ String.get i (format_08b value) = Some "0"%char)).
Proof.
  intros Hv Hlen Hi. rewrite (update_binary_bits_any _ _ Hlen).
  pose proof (bytes_forall
    (fun v =>
       match update_binary_bits v (replicate 8 0) with
       | Some bits =>
           bool_decide (length bits = 8%nat) &&
           bool_decide (String.length (format_08b v) = 8%nat) &&
           forallb
             (fun i =>
                bool_decide
                  ((bits !! i = Some 1 /\
                    String.get i (format_08b v) = Some "1"%char) \/
                   (bits !! i = Some 0 /\
                    String.get i (format_08b v) = Some "0"%char)))
             (seq 0 8)
       | None => false
       end)) as H.
  specialize (H ltac:(vm_compute; reflexivity) value Hv). cbv beta in H.
  destruct (update_binary_bits value (replicate 8 0)) as [bits|]; [|discriminate H].
  apply andb_prop in H as [H H3]. apply andb_prop in H as [H1 H2].
  apply bool_decide_eq_true in H1, H2.
  rewrite forallb_forall in H3.
  exists bits. split; [done|]. split; [done|]. split; [done|].
  eapply bool_decide_eq_true, H3. apply in_seq. lia.
Qed.

Lemma checkboxes_match_binary_text_witness :
  exists bits,
    update_binary_bits 172 [0; 0; 0; 0; 1; 1; 1; 1] = Some bits /\
    length bits = 8%nat /\
    String.length (format_08b 172) = 8%nat /\
    ((bits !! 2%nat = Some 1 /\ String.get 2 (format_08b 172) = Some "1"%char) \/
     (bits !! 2%nat = Some 0 /\ String.get 2 (format_08b 172) = Some "0"%char)).
Proof.
  apply (checkboxes_match_binary_text 172 [0; 0; 0; 0; 1; 1; 1; 1] 2);
    [lia | reflexivity | lia].
Defined.

(** X18: writing a byte into the 8 checkboxes and adding the checkboxes up
    again, as [sync_bits_to_text_a] does, gives the byte back. *)
Theorem bits_of_value_round_trip (value : Z) (bit_vars : list Z) :
  0 <= value <= 255 -> length bit_vars = 8%nat ->
  exists bits,
    update_binary_bits value bit_vars = Some bits /\
    sync_bits_value bits = Some value.
Proof.
  intros Hv Hlen. rewrite (update_binary_bits_any _ _ Hlen).
  pose proof (bytes_forall
    (fun v =>
       match update_binary_bits v (replicate 8 0) with
       | Some bits => bool_decide (sync_bits_value bits = Some v)
       | None => false
       end)) as H.
  specialize (H ltac:(vm_compute; reflexivity) value Hv). cbv beta in H.
  destruct (update_binary_bits value (replicate 8 0)) as [bits|]; [|discriminate H].
  apply bool_decide_eq_true in H. by exists bits.
Qed.

Lemma bits_of_value_round_trip_witness :
  exists bits,
    update_binary_bits 172 [1; 1; 1; 1; 1; 1; 1; 1] = Some bits /\
    sync_bits_value bits = Some 172.
Proof.
  apply (bits_of_value_round_trip 172 [1; 1; 1; 1; 1; 1; 1; 1]); [lia|reflexivity].
Defined.

(** X19: adding up 8 checkboxes that hold 0 or 1 gives a byte, and writing
    that byte back into the checkboxes leaves them as they were. *)
Theorem value_of_bits_round_trip (bits bit_vars : list Z) :
  length bits = 8%nat -> Forall (fun x => x = 0 \/ x = 1) bits ->
  length bit_vars = 8%nat ->
  exists value,
    sync_bits_value bits = Some value /\
    0 <= value <= 255 /\
    update_binary_bits value bit_vars = Some bits.
Proof.
  intros Hlen Hbits Hvars.
  do 8 (destruct bits as [|? bits]; [discriminate Hlen|]).
  destruct bits; [|discriminate Hlen].
  repeat match goal with
    | H : Forall _ (_ :: _) |- _ => apply Forall_cons in H as [[-> | ->] H]
    end.
  all: eexists; split; [vm_compute; reflexivity|].
  all: split; [lia|].
  all: rewrite (update_binary_bits_any _ _ Hvars); vm_compute; reflexivity.
Qed.

Lemma value_of_bits_round_trip_witness :
  exists value,
    sync_bits_value [1; 0; 1; 0; 1; 1; 0; 0] = Some value /\
    0 <= value <= 255 /\
    update_binary_bits value [0; 0; 0; 0; 0; 0; 0; 0] = Some [1; 0; 1; 0; 1; 1; 0; 0].
Proof.
  apply (value_of_bits_round_trip [1; 0; 1; 0; 1; 1; 0; 0] [0; 0; 0; 0; 0; 0; 0; 0]).
  - reflexivity.
  - repeat (apply Forall_cons; split; [first [left; reflexivity | right; reflexivity]|]).
    apply Forall_nil_2.
  - reflexivity.
Defined.

(** ** The status bar *)

(** The messages for the flags of a call, by the four tests of the engine. *)
Lemma status_messages_flags_of (a' b' opcode a b r : Z) :
  let V := overflow_of a' b' opcode (value_of a' b' opcode) in
  let C := carry_of a' b' opcode in
  let N := truthy (Z.land (value_of a' b' opcode) 128) in
  let Z := value_of a' b' opcode =? 0 in
  let name := get_operation_name opcode in
  let m :=
    (if V then [msg_overflow] else []) ++
    (if C then
       if opcode =? OP_ADD then [msg_carry a b]
       else if opcode =? OP_SUB then [msg_borrow a b] else []
     else []) ++
    (if N then [msg_negative r] else []) ++
    (if Z then [msg_zero] else []) in
  status_messages (flags_of a' b' opcode) name a b r =
    Some (match m with [] => [msg_success name r] | _ => m end) /\
  update_status_bar (flags_of a' b' opcode) name a b r =
    Some (mkStatus
            (str_join " | " (take 2 (match m with [] => [msg_success name r] | _ => m end)))
            (if V || C then led_on_red
             else if N then warning_color
             else if Z then led_on_green else accent_color)
            (if V || C then "white"
             else if N then "#000000"
             else if Z then "#000000" else "white")).
Proof.
  intros V C N Z name m.
  assert (status_messages (flags_of a' b' opcode) name a b r =
          Some (match m with [] => [msg_success name r] | _ => m end)) as E.
  { unfold status_messages.
    rewrite flags_of_V, flags_of_C, flags_of_N, flags_of_Z.
    cbn [mbind option_bind]. fold V C N Z. subst name m.
    rewrite str_in_ADD_name, str_in_SUB_name.
    by destruct V, C, N, Z, (opcode =? OP_ADD), (opcode =? OP_SUB). }
  split; [exact E|].
  unfold update_status_bar. rewrite E.
  rewrite flags_of_V, flags_of_C, flags_of_N, flags_of_Z.
  cbn [mbind option_bind]. fold V C N Z.
  by destruct V, C, N, Z.
Qed.

(** The carry test of the engine only fires for ADD and SUB. *)
Lemma carry_of_true (a b opcode : Z) :
  carry_of a b opcode = true -> opcode = OP_ADD \/ opcode = OP_SUB.
Proof.
  unfold carry_of.
  destruct (Z.eqb_spec opcode OP_ADD); [by left|].
  destruct (Z.eqb_spec opcode OP_SUB); [by right|]. discriminate.
Qed.

(** X20: for the flags of a valid call on bytes and the label of its opcode,
    [update_status_bar] meets no missing key, shows the first two of a
    non-empty list of messages, and whenever C is set the carry message (for
    ADD) or the borrow message (for SUB) is one of the two shown. *)
Theorem status_bar_explains_carry (a b opcode : Z) (s : state) :
  0 <= a <= 255 -> 0 <= b <= 255 -> valid_opcode opcode ->
  exists r d msgs st,
    call a b opcode s = Return (r, d) /\
    status_messages d (get_operation_name opcode) a b r = Some msgs /\
    update_status_bar d (get_operation_name opcode) a b r = Some st /\
    text st = str_join " | " (take 2 msgs) /\
    msgs <> [] /\
    (d !! "C" = Some 0 \/
     (d !! "C" = Some 1 /\ opcode = OP_ADD /\ msg_carry a b ∈ take 2 msgs) \/
     (d !! "C" = Some 1 /\ opcode = OP_SUB /\ msg_borrow a b ∈ take 2 msgs)).
Proof.
  intros Ha Hb Hop. rewrite call_valid by done. rewrite !byte_mask by done.
  destruct (status_messages_flags_of a b opcode a b (value_of a b opcode))
    as [E1 E2].
  eexists _, _, _, _.
  split; [reflexivity|]. split; [exact E1|]. split; [exact E2|].
  split; [reflexivity|].
  rewrite flags_of_C.
  destruct (carry_of a b opcode) eqn:EC.
  - destruct (carry_of_true _ _ _ EC) as [-> | ->]; decide_opcode.
    all: destruct (overflow_of _ _ _ _); cbn [app take].
    all: split; [done|]; right.
    1, 2: left; split; [done|]; split; [done|].
    3, 4: right; split; [done|]; split; [done|].
    all: first [apply list_elem_of_here
               | apply list_elem_of_further, list_elem_of_here].
  - split; [|by left].
    by destruct (overflow_of _ _ _ _), (truthy _), (_ =? 0).
Qed.

Lemma status_bar_explains_carry_witness :
  exists r d msgs st,
    call 0 128 OP_SUB power_on = Return (r, d) /\
    status_messages d (get_operation_name OP_SUB) 0 128 r = Some msgs /\
    update_status_bar d (get_operation_name OP_SUB) 0 128 r = Some st /\
    text st = str_join " | " (take 2 msgs) /\
    msgs <> [] /\
    (d !! "C" = Some 0 \/
     (d !! "C" = Some 1 /\ OP_SUB = OP_ADD /\ msg_carry 0 128 ∈ take 2 msgs) \/
     (d !! "C" = Some 1 /\ OP_SUB = OP_SUB /\ msg_borrow 0 128 ∈ take 2 msgs)).
Proof.
  apply (status_bar_explains_carry 0 128 OP_SUB power_on); [lia | lia |].
  apply valid_OP_SUB.
Defined.




Lemma msg_success_prefix (op_name : string) (r : Z) :
  str_to 5 (msg_success op_name r) = str_to 5 "✅ Operación".
Proof. reflexivity. Qed.

Lemma flags_of_cleared (a b opcode : Z) :
  flags_of a b opcode = cleared_flags <->
  overflow_of a b opcode (value_of a b opcode) = false /\
  carry_of a b opcode = false /\
  truthy (Z.land (value_of a b opcode) 128) = false /\
  (value_of a b opcode =? 0) = false.
Proof.
  split.
  - intros E.
    pose proof (flags_of_V a b opcode) as HV.
    pose proof (flags_of_C a b opcode) as HC.
    pose proof (flags_of_N a b opcode) as HN.
    pose proof (flags_of_Z a b opcode) as HZ.
    rewrite E in HV, HC, HN, HZ.
    destruct (overflow_of _ _ _ _); [discriminate HV|].
    destruct (carry_of _ _ _); [discriminate HC|].
    destruct (truthy _); [discriminate HN|].
    by destruct (_ =? 0); [discriminate HZ|].
  - intros (HV & HC & HN & HZ). unfold flags_of.
    by rewrite HV, HC, HN, HZ.
Qed.

(** X22: for a valid call on bytes, the status bar shows the success message
    alone, on the accent colour, exactly when the call left all four flags at
    0; in every other case the first message is one about a flag. *)
Theorem status_bar_success_iff_no_flag (a b opcode : Z) (s : state) :
  0 <= a <= 255 -> 0 <= b <= 255 -> valid_opcode opcode ->
  exists r d msgs st,
    call a b opcode s = Return (r, d) /\
    status_messages d (get_operation_name opcode) a b r = Some msgs /\
    update_status_bar d (get_operation_name opcode) a b r = Some st /\
    (msgs = [msg_success (get_operation_name opcode) r] <-> d = cleared_flags) /\
    (st = mkStatus (msg_success (get_operation_name opcode) r) accent_color "white"
     <-> d = cleared_flags).
Proof.
  intros Ha Hb Hop. rewrite call_valid by done. rewrite !byte_mask by done.
  destruct (status_messages_flags_of a b opcode a b (value_of a b opcode))
    as [E1 E2].
  eexists _, _, _, _.
  split; [reflexivity|]. split; [exact E1|]. split; [exact E2|].
  clear E1 E2. rewrite !flags_of_cleared.
  assert (forall (m name : string) (r : Z),
            str_to 5 m <> str_to 5 "✅ Operación" -> m <> msg_success name r) as Hne.
  { intros m name r Hm ->. by apply Hm. }
  destruct (carry_of a b opcode) eqn:EC.
  - destruct (carry_of_true _ _ _ EC) as [-> | ->]; decide_opcode.
    all: destruct (overflow_of _ _ _ _), (truthy _), (_ =? 0); cbn.
    all: split; (split; [intros H; exfalso|intros (?&?&?&?); discriminate]).
    all: first [apply (f_equal text) in H; cbn [text] in H
             |apply (f_equal (hd EmptyString)) in H; cbn [hd] in H];
      match type of H with
      | ?m = msg_success ?n ?r =>
          apply (Hne m n r); [intros Hx; vm_compute in Hx; discriminate Hx|exact H]
      end.
  - destruct (overflow_of _ _ _ _), (truthy _), (_ =? 0); cbn.
    all: split; (split; [intros H|intros (?&?&?&?); try discriminate; try done]).
    all: try done.
    all: exfalso; first [apply (f_equal text) in H; cbn [text] in H
             |apply (f_equal (hd EmptyString)) in H; cbn [hd] in H];
      match type of H with
      | ?m = msg_success ?n ?r =>
          apply (Hne m n r); [intros Hx; vm_compute in Hx; discriminate Hx|exact H]
      end.
Qed.

Lemma status_bar_success_iff_no_flag_witness :
  exists r d msgs st,
    call 172 240 OP_XOR power_on = Return (r, d) /\
    status_messages d (get_operation_name OP_XOR) 172 240 r = Some msgs /\
    update_status_bar d (get_operation_name OP_XOR) 172 240 r = Some st /\
    (msgs = [msg_success (get_operation_name OP_XOR) r] <-> d = cleared_flags) /\
    (st = mkStatus (msg_success (get_operation_name OP_XOR) r) accent_color "white"
     <-> d = cleared_flags).
Proof.
  apply (status_bar_success_iff_no_flag 172 240 OP_XOR power_on); [lia | lia |].
  unfold valid_opcode, OP_XOR. lia.
Defined.

(** ** Edges *)

(** X23: XOR tests two bytes for equality: it returns 0, with Z set, exactly
    when the operands are equal. *)
Theorem xor_tests_equality (a b : Z) (s : state) :
  0 <= a <= 255 -> 0 <= b <= 255 ->
  exists r d,
    call a b OP_XOR s = Return (r, d) /\
    (r = 0 <-> a = b) /\
    flag_is d "Z" (a = b).
Proof.
  intros Ha Hb.
  rewrite call_valid by (unfold valid_opcode, OP_XOR; lia).
  rewrite !byte_mask by done.
  assert (value_of a b OP_XOR = Z.lxor a b) as E.
  { unfold value_of; decide_opcode. by apply lxor_byte. }
  eexists _, _; split; [reflexivity|]. rewrite E.
  split; [apply Z.lxor_eq_0_iff|].
  eapply flag_is_b2z; [apply flags_of_Z|].
  rewrite E, Z.eqb_eq. apply Z.lxor_eq_0_iff.
Qed.

Lemma xor_tests_equality_witness :
  exists r d,
    call 77 77 OP_XOR power_on = Return (r, d) /\
    (r = 0 <-> 77 = 77) /\
    flag_is d "Z" (77 = 77).
Proof. apply (xor_tests_equality 77 77 power_on); lia. Defined.

(** X24: with fewer than 8 checkbox variables both checkbox loops stop with
    an IndexError, whatever the value and the variables are. *)
Theorem checkbox_loops_need_8_variables (value : Z) (bit_vars : list Z) :
  (length bit_vars < 8)%nat ->
  update_binary_bits value bit_vars = None /\
  sync_bits_value bit_vars = None.
Proof.
  intros H.
  do 8 (destruct bit_vars as [|? bit_vars]; [by split|]).
  cbn [length] in H. lia.
Qed.

Lemma checkbox_loops_need_8_variables_witness :
  update_binary_bits 172 [1; 0; 1] = None /\
  sync_bits_value [1; 0; 1] = None.
Proof. apply (checkbox_loops_need_8_variables 172 [1; 0; 1]). cbn. lia. Defined.

(** X25: [update_status_bar] stops with a KeyError as soon as one of the
    four flags is missing from the dict it is given. *)
Theorem status_bar_needs_all_flags
    (d : dict) (k op_name : string) (a b r : Z) :
  In k ["V"; "C"; "N"; "Z"] -> d !! k = None ->
  status_messages d op_name a b r = None /\
  update_status_bar d op_name a b r = None.
Proof.
  intros Hk Hd.
  assert (status_messages d op_name a b r = None) as E.
  { unfold status_messages.
    cbn in Hk. destruct Hk as [<-|[<-|[<-|[<-|[]]]]].
    all: destruct (d !! "V") eqn:EV, (d !! "C") eqn:EC,
           (d !! "N") eqn:EN, (d !! "Z") eqn:EZ.
    all: first [reflexivity | discriminate Hd]. }
  split; [exact E|]. unfold update_status_bar. by rewrite E.
Qed.

Lemma status_bar_needs_all_flags_witness :
  status_messages (delete "N" cleared_flags) "AND" 1 2 0 = None /\
  update_status_bar (delete "N" cleared_flags) "AND" 1 2 0 = None.
Proof.
  apply (status_bar_needs_all_flags (delete "N" cleared_flags) "N" "AND" 1 2 0).
  - cbn. right. right. by left.
  - vm_compute. reflexivity.
Defined.
